(** * Presentation encoder of the FDA warning-letter dashboard (app.py)

    The dashboard declares a handful of literal pandas tables and derives
    from them the value-dependent encodings of its charts: bar colours,
    signed percent labels and the reading of the sophistication ratio.

    A [pd.DataFrame] built from a dict of lists is column oriented: one
    list per column, all of the same length.  Integer columns are int64
    (here [Z], nothing in the program comes near the wrap-around), float
    columns are binary64 (here the kernel's primitive [float], so that a
    literal such as [34.8] denotes the same double as in Python), string
    columns are [string]. *)

From Stdlib Require Import ZArith List String Ascii Bool Lia.
From Stdlib Require Import QArith Qabs Qround Qpower Lqa.
From Stdlib Require Import Floats.
From Stdlib Require Import DecimalString DecimalZ DecimalN DecimalPos.
From Stdlib Require Import Permutation Sorted.
Import ListNotations.

#[local] Set Warnings "-inexact-float".
#[local] Open Scope string_scope.
#[local] Open Scope Z_scope.

(* ====================================================================== *)
(** ** DATA *)
(* ====================================================================== *)

Definition TOTAL_OBSERVATIONS : Z := 141.
Definition TOTAL_LETTERS : Z := 111.
Definition TOTAL_COMPANIES : Z := 109.

(** [violation_data]: violation types. *)
Record ViolationFrame := {
  Violation_Type : list string;
  Count : list Z;
  Percentage : list float
}.

Definition violation_data : ViolationFrame := {|
  Violation_Type := [
    "Audit Trail Failures";
    "Automatic Equipment Controls (211.68)";
    "Chromatography Data Systems";
    "Electronic Records";
    "Password & Login Issues";
    "Computerized Systems General";
    "Access Control Failures";
    "Software Validation";
    "Data Backup Deficiencies" ];
  Count := [49; 40; 24; 24; 24; 22; 21; 19; 8];
  Percentage := [34.8; 28.4; 17.0; 17.0; 17.0; 15.6; 14.9; 13.5; 5.7]%float
|}.

(** [sophistication_data]: sophistication analysis. *)
Record SophisticationFrame := {
  Region : list string;
  Basic_Failures : list float;
  Complex_Failures : list float;
  Sophistication_Ratio : list float
}.

Definition sophistication_data : SophisticationFrame := {|
  Region := ["United States"; "India"; "China"];
  Basic_Failures := [36.4; 21.1; 33.3]%float;
  Complex_Failures := [34.3; 22.8; 22.2]%float;
  Sophistication_Ratio := [0.94; 1.08; 0.67]%float
|}.

(** [facility_data]: facility type. *)
Record FacilityFrame := {
  Facility_Type : list string;
  Audit_Trail_Violations : list Z;
  Other_CSV_Violations : list Z
}.

Definition facility_data : FacilityFrame := {|
  Facility_Type := ["QC Laboratory"; "API Manufacturing";
                    "Sterile Manufacturing"; "Finished Dosage"; "Other"];
  Audit_Trail_Violations := [17; 11; 3; 6; 12];
  Other_CSV_Violations := [12; 15; 11; 9; 45]
|}.

(** [growth_data]: year-over-year change. *)
Record GrowthFrame := {
  Growth_Violation_Type : list string;
  Y2022 : list Z;
  Y2024 : list Z;
  Growth_Pct : list Z
}.

Definition growth_data : GrowthFrame := {|
  Growth_Violation_Type := ["Audit Trail"; "Password Security";
                            "Electronic Records"; "Equipment Controls"];
  Y2022 := [9; 7; 4; 7];
  Y2024 := [12; 3; 4; 7];
  Growth_Pct := [33; -57; 0; 0]
|}.

(** [keyword_data]: concerning keywords. *)
Record KeywordFrame := {
  Finding : list string;
  Pct_of_Observations : list float
}.

Definition keyword_data : KeywordFrame := {|
  Finding := ["Delete capability"; "Administrator access";
              "Shared credentials"; "Not enabled"; "Spreadsheet use";
              "Backup issues"; "Manual workarounds"];
  Pct_of_Observations := [15.6; 9.9; 7.1; 6.4; 7.8; 5.7; 4.3]%float
|}.

(** [len(df)] is the number of rows, the common length of the columns. *)
Definition len_violation (df : ViolationFrame) : nat :=
  List.length (Violation_Type df).

(** Python's [range(n)]. *)
Definition range (n : nat) : list nat := seq 0 n.

(** Python's [zip]. *)
Definition zip {A B : Type} (xs : list A) (ys : list B) : list (A * B) :=
  combine xs ys.

(** Sum of an integer column, [df[col].sum()]. *)
Definition column_sum (col : list Z) : Z := fold_right Z.add 0 col.

(** [df.loc[df[key] == k, col]], first match: the cell of [col] in the row
    whose key cell is [k]. *)
Fixpoint cell_at {A : Type} (keys : list string) (col : list A) (k : string)
  : option A :=
  match keys, col with
  | key :: keys', v :: col' =>
      if String.eqb key k then Some v else cell_at keys' col' k
  | _, _ => None
  end.

(* ====================================================================== *)
(** ** Conditional colour comprehensions *)
(* ====================================================================== *)

(** The three colour lists of the page are comprehensions of one shape,
    [[emphasis if p(x) else neutral for x in xs]]: one colour per element,
    in the order of [xs]. *)
Definition encodeCategoryColor {A : Type} (emphasis neutral : string)
  (highlightPredicate : A -> bool) (xs : list A) : list string :=
  map (fun x => if highlightPredicate x then emphasis else neutral) xs.

(** Python's [x in lst] on a list of strings: some element equals [x]. *)
Definition py_in (x : string) (lst : list string) : bool :=
  existsb (fun y => String.eqb y x) lst.

Module ViolationChart.

Definition emphasis_color : string := "#dc2626".
Definition neutral_color : string := "#475569".

(** [i == 0] *)
Definition is_first (i : nat) : bool := Nat.eqb i 0.

(** [['#dc2626' if i == 0 else '#475569' for i in range(n)]] *)
Definition colors_of (n : nat) : list string :=
  encodeCategoryColor emphasis_color neutral_color is_first (range n).

(** [colors], with [n = len(violation_data)]. *)
Definition colors : list string := colors_of (len_violation violation_data).

End ViolationChart.

Module KeywordChart.

Definition emphasis_color : string := "#dc2626".
Definition neutral_color : string := "#64748b".

Definition emphasis_set : list string :=
  ["Delete capability"; "Spreadsheet use"; "Administrator access"].

(** [kw in ['Delete capability', 'Spreadsheet use', 'Administrator access']] *)
Definition is_emphasised (kw : string) : bool := py_in kw emphasis_set.

(** [['#dc2626' if kw in [...] else '#64748b' for kw in findings]] *)
Definition colors_of (findings : list string) : list string :=
  encodeCategoryColor emphasis_color neutral_color is_emphasised findings.

Definition colors : list string := colors_of (Finding keyword_data).

End KeywordChart.

(* ====================================================================== *)
(** ** Growth chart: colour by the sign of the delta, signed labels *)
(* ====================================================================== *)

(** Decimal digits of a natural number, as [str] prints them. *)
Definition decimal_digits (n : N) : string :=
  NilZero.string_of_uint (N.to_uint n).

(** Python's format specification [+d] on an int: a sign in every case
    ([+] for zero and above, [-] below), then the digits of the magnitude. *)
Definition format_plus_d (g : Z) : string :=
  (if g <? 0 then "-" else "+") ++ decimal_digits (Z.abs_N g).

Module GrowthChart.

Definition increase_color : string := "#dc2626".
Definition other_color : string := "#059669".

(** The element expression ['#dc2626' if g > 0 else '#059669']. *)
Definition encodeSignedColor (g : Z) : string :=
  if g >? 0 then increase_color else other_color.

(** [colors = [... for g in growth_data['Growth_Pct']]] *)
Definition colors_of (col : list Z) : list string :=
  map encodeSignedColor col.

Definition colors : list string := colors_of (Growth_Pct growth_data).

(** The label inside the bold markup of the bar text, [{g:+d}%]. *)
Definition formatSignedPercentLabel (g : Z) : string :=
  format_plus_d g ++ "%".

(** The element expression [f"<b>{g:+d}%</b>"]. *)
Definition bar_text (g : Z) : string :=
  "<b>" ++ format_plus_d g ++ "%</b>".

(** [text = [f"<b>{g:+d}%</b>" for g in growth_data['Growth_Pct']]] *)
Definition text_of (col : list Z) : list string := map bar_text col.

Definition text : list string := text_of (Growth_Pct growth_data).

End GrowthChart.

(* ====================================================================== *)
(** ** Sophistication ratio *)
(* ====================================================================== *)

(** A cell as Python sees it when the loop reads it.  The literal table
    holds floats only; the other shapes are what an ill-authored table
    could hold (a missing value in a float column is the float NaN). *)
Inductive pyval : Type :=
| PyFloat (f : float)
| PyInt (z : Z)
| PyStr (s : string)
| PyNone.

Inductive pyexn : Type :=
| TypeError (msg : string)
| ValueError (msg : string)
| OverflowError (msg : string).

Module Sophistication.

Definition above_color : string := "#059669".
Definition below_color : string := "#dc2626".
Definition above_text : string := "More complex than basic".
Definition below_text : string := "More basic than complex".

(** [ratio > 1] on a float: Python compares a float with the int [1]
    exactly, which is the comparison with the float [1.0]; it is false
    when [ratio] is NaN. *)
Definition ratio_gt_1 (ratio : float) : bool := (1 <? ratio)%float.

(** The two arms of [if ratio > 1: ... else: ...]. *)
Inductive Reading : Type := ABOVE | BELOW.

Definition interpretRatio (ratio : float) : Reading :=
  if ratio_gt_1 ratio then ABOVE else BELOW.

Definition color_of (r : Reading) : string :=
  match r with ABOVE => above_color | BELOW => below_color end.

Definition interpretation_of (r : Reading) : string :=
  match r with ABOVE => above_text | BELOW => below_text end.

(** The statement as written: both assignments of the arm taken. *)
Definition branch (gt : bool) : string * string :=
  if gt then ("#059669", "More complex than basic")
  else ("#dc2626", "More basic than complex").

(** [ratio > 1] on any cell.  Ordering a [str] or [None] against an int
    raises [TypeError]. *)
Definition py_gt_1 (ratio : pyval) : pyexn + bool :=
  match ratio with
  | PyFloat f => inr (ratio_gt_1 f)
  | PyInt z => inr (z >? 1)
  | PyStr _ =>
      inl (TypeError "'>' not supported between instances of 'str' and 'int'")
  | PyNone =>
      inl (TypeError
             "'>' not supported between instances of 'NoneType' and 'int'")
  end.

(** What one [st.markdown] call of the loop shows: the values put into
    the fixed HTML template (region, colour, ratio, interpretation). *)
Record Block : Type := {
  blk_region : string;
  blk_color : string;
  blk_ratio : pyval;
  blk_interpretation : string
}.

(** A row as the loop reads it: [row['Region']] and
    [row['Sophistication Ratio']]. *)
Definition Row : Type := (string * pyval)%type.

(** An int that Python cannot turn into a float.  The conversion rounds
    to the nearest double, halves to even, and the largest double is
    [2^1024 - 2^971]: the first magnitude that rounds past it is
    [2^1024 - 2^970]. *)
Definition int_too_large (z : Z) : bool :=
  2 ^ 1024 - 2 ^ 970 <=? Z.abs z.

(** What formatting a cell with [{ratio:.2f}] raises, if anything.  A
    float always has a text ([nan] and [inf] too); an int is first turned
    into a float; [str] knows no format code [f] and [None] no format
    string at all. *)
Definition format_2f_error (ratio : pyval) : option pyexn :=
  match ratio with
  | PyFloat _ => None
  | PyInt z =>
      if int_too_large z
      then Some (OverflowError "int too large to convert to float")
      else None
  | PyStr _ =>
      Some (ValueError "Unknown format code 'f' for object of type 'str'")
  | PyNone =>
      Some (TypeError
              "unsupported format string passed to NoneType.__format__")
  end.

(** The body of the loop up to the [st.markdown] call: the test, the two
    assignments of the arm taken, then the f-string, whose only field that
    can raise is [{ratio:.2f}]. *)
Definition body (row : Row) : pyexn + Block :=
  let ratio := snd row in
  match py_gt_1 ratio with
  | inl e => inl e
  | inr gt =>
      let '(color, interpretation) := branch gt in
      match format_2f_error ratio with
      | Some e => inl e
      | None =>
          inr {| blk_region := fst row; blk_color := color;
                 blk_ratio := ratio; blk_interpretation := interpretation |}
      end
  end.

(** [for _, row in rows: ...], threading the blocks already on the page.
    An exception ends the loop; what was emitted before stays emitted. *)
Fixpoint render_from (page : list Block) (rows : list Row)
  : list Block * option pyexn :=
  match rows with
  | [] => (page, None)
  | row :: rest =>
      match body row with
      | inl e => (page, Some e)
      | inr b => render_from (page ++ [b])%list rest
      end
  end.

Definition render (rows : list Row) : list Block * option pyexn :=
  render_from [] rows.

(** [sophistication_data.iterrows()], restricted to the columns read. *)
Definition iterrows (df : SophisticationFrame) : list Row :=
  zip (Region df) (map PyFloat (Sophistication_Ratio df)).


(** The block of a row with a numeric ratio. *)
Definition block_of (row : Row) : Block :=
  let gt := match snd row with
            | PyFloat f => ratio_gt_1 f
            | PyInt z => z >? 1
            | _ => false
            end in
  {| blk_region := fst row; blk_color := fst (branch gt);
     blk_ratio := snd row; blk_interpretation := snd (branch gt) |}.


(** A cell the body can show: a float, or an int that fits a double. *)
Definition renderable (v : pyval) : bool :=
  match v with
  | PyFloat _ => true
  | PyInt z => negb (int_too_large z)
  | _ => false
  end.

(** All ratio cells of the rows can be shown. *)
Definition all_renderable (rows : list Row) : bool :=
  forallb (fun row => renderable (snd row)) rows.

End Sophistication.

(** ASCII lower case of a string, to compare wordings up to case. *)
Definition lower_ascii (c : ascii) : ascii :=
  let n := nat_of_ascii c in
  if ((65 <=? n) && (n <=? 90))%nat then ascii_of_nat (n + 32) else c.

Fixpoint lower (s : string) : string :=
  match s with
  | EmptyString => EmptyString
  | String c s' => String (lower_ascii c) (lower s')
  end.

(* ====================================================================== *)
(** ** Percentages of the violation table *)
(* ====================================================================== *)

(** The exact rational value of a double; [None] for NaN and infinities. *)
Definition float_to_Q (x : float) : option Q :=
  match Prim2SF x with
  | S754_zero _ => Some 0%Q
  | S754_finite s m e =>
      Some ((if s then inject_Z (Z.neg m) else inject_Z (Z.pos m))
            * Qpower 2 e)%Q
  | S754_infinity _ | S754_nan => None
  end.

(** A count as a float, as Python's true division converts an int operand;
    exact for [0 <= c < 2^53]. *)
Definition float_of_count (c : Z) : float := of_uint63 (Uint63.of_Z c).

(** [count / total * 100] in binary64. *)
Definition share_float (count total : Z) : float :=
  (float_of_count count / float_of_count total * 100)%float.

(** [abs(percentage - count / total * 100) <= 0.05] in binary64. *)
Definition within_tolerance_float (total : Z) (row : Z * float) : bool :=
  let '(count, percentage) := row in
  (abs (percentage - share_float count total) <=? 0.05)%float.

(** [count / total * 100] as an exact rational. *)
Definition share (count total : Z) : Q :=
  (inject_Z count / inject_Z total * 100)%Q.

(** The same test on the exact value of the stored double, in exact
    rational arithmetic. *)
Definition within_tolerance (total : Z) (row : Z * float) : Prop :=
  let '(count, percentage) := row in
  exists p : Q, float_to_Q percentage = Some p /\
    (Qabs (p - share count total) <= 5 # 100)%Q.

(** The rows [(Count, Percentage)] of the violation table. *)
Definition violation_rows (df : ViolationFrame) : list (Z * float) :=
  zip (Count df) (Percentage df).

(* ====================================================================== *)
(** ** Growth table *)
(* ====================================================================== *)

(** The rows [(Y2022, Y2024, Growth_Pct)] of the growth table. *)
Definition growth_rows (df : GrowthFrame) : list (Z * Z * Z) :=
  zip (zip (Y2022 df) (Y2024 df)) (Growth_Pct df).

(** [(B - A) / A * 100] as an exact rational. *)
Definition growth_formula (a b : Z) : Q :=
  (inject_Z (b - a) / inject_Z a * 100)%Q.

(** The integer nearest to a rational (halves go up). *)
Definition nearest_integer (q : Q) : Z := Qfloor (q + (1 # 2))%Q.

(** A row whose stored growth is the formula's value, exactly. *)
Definition growth_exact (row : Z * Z * Z) : Prop :=
  let '(a, b, g) := row in (inject_Z g == growth_formula a b)%Q.

(** A row whose stored growth is the integer nearest to the formula's
    value, less than one half away from it, with the sign of [B - A]. *)
Definition growth_rounded (row : Z * Z * Z) : Prop :=
  let '(a, b, g) := row in
  g = nearest_integer (growth_formula a b) /\
  (Qabs (inject_Z g - growth_formula a b) < 1 # 2)%Q /\
  Z.sgn g = Z.sgn (b - a).

(* ====================================================================== *)
(** ** Ranking *)
(* ====================================================================== *)

(** The measure of row [i]. *)
Definition measure_at (col : list Z) (i : nat) : Z := nth i col 0.

(** Modelled from the spec: the page has no [rankRows]; it relies on the
    literal tables being written in rank order already.  The spec words it
    as: an ordered sequence of row indices, descending by measure, ties
    broken by original table order (stable sort).  Here: insertion of an
    index in front of the first one whose measure it reaches. *)
Fixpoint rank_insert (m : nat -> Z) (i : nat) (ranked : list nat)
  : list nat :=
  match ranked with
  | [] => [i]
  | j :: rest =>
      if m j <=? m i then i :: ranked else j :: rank_insert m i rest
  end.

(** Modelled from the spec: [rankRows(table, byMeasure)], missing from the
    page; every index is inserted among the ranked later ones. *)
Definition rankRows (col : list Z) : list nat :=
  fold_right (rank_insert (measure_at col)) [] (range (List.length col)).

(** [i] is ranked before [j]: a larger measure, or the same measure and an
    earlier row. *)
Definition ranked_before (m : nat -> Z) (i j : nat) : Prop :=
  m j < m i \/ (m i = m j /\ (i < j)%nat).

(* ====================================================================== *)
(** ** The other tables and texts of the page *)
(* ====================================================================== *)

(** [yearly_data]: yearly trend. *)
Record YearlyFrame := {
  Year : list string;
  Observations : list Z;
  Period : list string
}.

Definition yearly_data : YearlyFrame := {|
  Year := ["2020"; "2021"; "2022"; "2023"; "2024"; "2025"];
  Observations := [8; 7; 17; 8; 23; 22];
  Period := ["Pre-surge"; "Pre-surge"; "Pre-surge"; "Pre-surge";
             "Surge"; "Surge"]
|}.

(** The anchor of the annotation of the yearly chart, [x='2024', y=23],
    and the whole percent its text shows, [+187%]. *)
Definition spike_annotation_x : string := "2024".
Definition spike_annotation_y : Z := 23.
Definition spike_annotation_pct : Z := 187.

(** [geo_data]: geographic distribution. *)
Record GeoFrame := {
  Geo_Region : list string;
  Geo_Observations : list Z;
  Geo_Percentage : list float
}.

Definition geo_data : GeoFrame := {|
  Geo_Region := ["United States"; "India"; "China"; "Germany";
                 "South Korea"; "Other Regions"];
  Geo_Observations := [71; 28; 14; 6; 3; 19];
  Geo_Percentage := [50.4; 19.9; 9.9; 4.3; 2.1; 13.4]%float
|}.

(** Python's [str] of an int, as [{c}] in an f-string prints it: a minus
    sign below zero, no sign otherwise, then the digits. *)
Definition format_d (c : Z) : string :=
  (if c <? 0 then "-" else "") ++ decimal_digits (Z.abs_N c).

Section FloatText.

(** Python's [str] of a float, as [{p}] in an f-string prints it (the
    shortest decimal that reads back as the same double): interpreter
    code, taken as given. *)
Variable float_str : float -> string.

(** The element expression [f"<b>{c}</b> ({p}%)"] of the violation chart. *)
Definition violation_bar_text (cp : Z * float) : string :=
  "<b>" ++ format_d (fst cp) ++ "</b> (" ++ float_str (snd cp) ++ "%)".

(** [text = [f"<b>{c}</b> ({p}%)" for c, p in zip(counts, percentages)]] *)
Definition violation_text_of (counts : list Z) (percentages : list float)
  : list string :=
  map violation_bar_text (zip counts percentages).

(** [text = [f"<b>{p}%</b>" for p in percentages]] of the keyword chart. *)
Definition keyword_text_of (percentages : list float) : list string :=
  map (fun p => "<b>" ++ float_str p ++ "%</b>") percentages.

End FloatText.

(** Rounding of a rational to an integer, halves to the even neighbour. *)
Definition round_half_even (q : Q) : Z :=
  let f := Qfloor q in
  match Qcompare (q - inject_Z f) (1 # 2) with
  | Lt => f
  | Gt => f + 1
  | Eq => if Z.even f then f else f + 1
  end.

(** A number below 100 on two digits. *)
Definition two_digits (n : N) : string :=
  (if (n <? 10)%N then "0" else "") ++ decimal_digits n.

(** A count of hundredths in fixed notation: sign, integer part, point,
    two decimals. *)
Definition fixed_2 (neg : bool) (hundredths : N) : string :=
  (if neg then "-" else "")
  ++ decimal_digits (hundredths / 100)%N ++ "."
  ++ two_digits (hundredths mod 100)%N.

(** Python's format specification [.2f] on a float: the exact value of the
    double rounded to hundredths, halves to even, with the sign of the
    double (kept on a zero); [nan] and [inf] are spelled out. *)
Definition format_2f (x : float) : string :=
  match Prim2SF x with
  | S754_nan => "nan"
  | S754_infinity s => if s then "-inf" else "inf"
  | S754_zero s => fixed_2 s 0
  | S754_finite s m e =>
      fixed_2 s
        (Z.to_N (round_half_even (inject_Z (Z.pos m) * Qpower 2 e * 100)%Q))
  end.

(** The magnitude of a double as an exact rational; [None] for NaN and
    infinities. *)
Definition float_magnitude (x : float) : option Q :=
  option_map Qabs (float_to_Q x).

(** The rows [(Observations, Percentage)] of the geographic table. *)
Definition geo_rows (df : GeoFrame) : list (Z * float) :=
  zip (Geo_Observations df) (Geo_Percentage df).

(** [abs(percentage - count / total * 100) <= tol] on the exact value of
    the stored double. *)
Definition within (tol : Q) (total : Z) (row : Z * float) : Prop :=
  exists p : Q, float_to_Q (snd row) = Some p /\
    (Qabs (p - share (fst row) total) <= tol)%Q.

(** The rows [(Basic Failures, Complex Failures, Sophistication Ratio)]. *)
Definition sophistication_rows (df : SophisticationFrame)
  : list (float * float * float) :=
  zip (zip (Basic_Failures df) (Complex_Failures df))
    (Sophistication_Ratio df).

(** A row whose stored ratio is complex / basic to two decimals, on the
    exact values of the doubles, and whose reading says which of the two
    percentages is the larger. *)
Definition ratio_consistent (row : float * float * float) : Prop :=
  let '(basic, complex, ratio) := row in
  (exists b c r : Q,
      float_to_Q basic = Some b /\ float_to_Q complex = Some c /\
      float_to_Q ratio = Some r /\ (0 < b)%Q /\
      (Qabs (r - c / b) <= 5 # 1000)%Q) /\
  (Sophistication.interpretRatio ratio = Sophistication.ABOVE
   <-> (basic <? complex)%float = true).

(** Strictly increasing integers. *)
Fixpoint increasing (l : list Z) : bool :=
  match l with
  | x :: (y :: _) as rest => (x <? y) && increasing rest
  | _ => true
  end.

(** A year label read as a number. *)
Definition year_number (y : string) : option Z :=
  option_map (fun d => Z.of_N (N.of_uint d)) (NilZero.uint_of_string y).

(** The exact sum of the values of a float column; [None] when a cell is
    NaN or infinite. *)
Fixpoint exact_sum (col : list float) : option Q :=
  match col with
  | [] => Some 0%Q
  | x :: rest =>
      match float_to_Q x, exact_sum rest with
      | Some q, Some t => Some (q + t)%Q
      | _, _ => None
      end
  end.

(** How many bars of a colour list have a given colour. *)
Definition bars_of_color (color : string) (colors : list string) : nat :=
  count_occ string_dec colors color.

(* ====================================================================== *)
(** * Properties *)
(* ====================================================================== *)

(** ** Order of binary64 values *)

(** Swapping the operands of the specification's comparison flips its
    outcome; an unordered pair (a NaN operand) stays unordered. *)
Lemma SFcompare_swap (x y : spec_float) :
  SFcompare y x = option_map CompOpp (SFcompare x y).
Proof.
  destruct x as [sx | sx | | sx mx ex], y as [sy | sy | | sy my ey];
    simpl; try reflexivity;
    try (destruct sx; reflexivity);
    try (destruct sy; reflexivity);
    try (destruct sx, sy; reflexivity).
  f_equal.
  assert (Hm : Pos.compare_cont Eq my mx
               = CompOpp (Pos.compare_cont Eq mx my))
    by exact (Pos.compare_antisym mx my).
  destruct sx, sy; try reflexivity;
    rewrite (Z.compare_antisym ex ey);
    destruct (ex ?= ey)%Z; simpl; try reflexivity;
    rewrite Hm; destruct (Pos.compare_cont Eq mx my); reflexivity.
Qed.

(** [<] on doubles is asymmetric. *)
Lemma float_ltb_asym (x y : float) :
  (x <? y)%float = true -> (y <? x)%float = false.
Proof.
  rewrite !ltb_spec. unfold SFltb.
  rewrite (SFcompare_swap (Prim2SF x) (Prim2SF y)).
  destruct (SFcompare (Prim2SF x) (Prim2SF y)) as [[ | | ] | ];
    simpl; intros H; try discriminate H; reflexivity.
Qed.

(** ** Colour comprehensions *)

Section Comprehension.

Context {A : Type}.
Variables emphasis neutral : string.
Variable highlightPredicate : A -> bool.

(** One colour per element. *)
Lemma encodeCategoryColor_length (xs : list A) :
  List.length (encodeCategoryColor emphasis neutral highlightPredicate xs)
  = List.length xs.
Proof. unfold encodeCategoryColor. apply length_map. Qed.

(** The colour at position [i] is that of the element at position [i]. *)
Lemma encodeCategoryColor_nth (xs : list A) (i : nat) :
  nth_error (encodeCategoryColor emphasis neutral highlightPredicate xs) i
  = option_map (fun x => if highlightPredicate x then emphasis else neutral)
      (nth_error xs i).
Proof. unfold encodeCategoryColor. apply nth_error_map. Qed.

(** When the two colours differ, the emphasis colour marks exactly the
    elements on which the predicate holds. *)
Lemma encodeCategoryColor_emphasis (xs : list A) (i : nat) (x : A) :
  emphasis <> neutral ->
  nth_error xs i = Some x ->
  (nth_error (encodeCategoryColor emphasis neutral highlightPredicate xs) i
   = Some emphasis <-> highlightPredicate x = true) /\
  (nth_error (encodeCategoryColor emphasis neutral highlightPredicate xs) i
   = Some neutral <-> highlightPredicate x = false).
Proof.
  intros Hne Hx. rewrite encodeCategoryColor_nth, Hx. simpl.
  destruct (highlightPredicate x); split; split; intros H;
    try reflexivity; try discriminate H; inversion H; congruence.
Qed.

End Comprehension.

(** [py_in] decides membership. *)
Lemma py_in_In (x : string) (lst : list string) :
  py_in x lst = true <-> In x lst.
Proof.
  unfold py_in. rewrite existsb_exists. split.
  - intros (y & Hy & Heq). apply String.eqb_eq in Heq. now subst.
  - intros H. exists x. split; [exact H | apply String.eqb_refl].
Qed.

Lemma py_in_not_In (x : string) (lst : list string) :
  py_in x lst = false <-> ~ In x lst.
Proof.
  rewrite <- py_in_In. destruct (py_in x lst); split; intros H;
    try reflexivity; try discriminate H; try (intros H'; discriminate H').
  exfalso. now apply H.
Qed.

(** C5. The colour lists of the violation chart and of the keyword chart
    hold one colour per row, at the row's own position: in the violation
    chart the emphasis colour sits at row 0 and nowhere else, and row 0 of
    the literal table holds the largest count; in the keyword chart the
    emphasis colour sits at exactly the rows whose label is one of
    "Delete capability", "Spreadsheet use", "Administrator access"; every
    other row has the chart's neutral colour.  The lists are values of pure
    functions of the rows, so nothing is reordered and nothing else
    changes. *)
Theorem encodeCategoryColor_aligned :
  (forall n : nat,
      List.length (ViolationChart.colors_of n) = n /\
      forall i : nat, (i < n)%nat ->
        (nth_error (ViolationChart.colors_of n) i
         = Some ViolationChart.emphasis_color <-> i = 0%nat) /\
        (nth_error (ViolationChart.colors_of n) i
         = Some ViolationChart.neutral_color <-> i <> 0%nat)) /\
  (forall findings : list string,
      List.length (KeywordChart.colors_of findings) = List.length findings /\
      forall (i : nat) (kw : string), nth_error findings i = Some kw ->
        (nth_error (KeywordChart.colors_of findings) i
         = Some KeywordChart.emphasis_color
         <-> In kw KeywordChart.emphasis_set) /\
        (nth_error (KeywordChart.colors_of findings) i
         = Some KeywordChart.neutral_color
         <-> ~ In kw KeywordChart.emphasis_set)) /\
  ViolationChart.colors
  = ["#dc2626"; "#475569"; "#475569"; "#475569"; "#475569"; "#475569";
     "#475569"; "#475569"; "#475569"] /\
  List.length ViolationChart.colors = List.length (Count violation_data) /\
  Forall (fun c => c <= measure_at (Count violation_data) 0)
    (Count violation_data) /\
  KeywordChart.colors
  = ["#dc2626"; "#dc2626"; "#64748b"; "#64748b"; "#dc2626"; "#64748b";
     "#64748b"].
Proof.
  split; [ | split; [ | split; [ | split; [ | split ] ] ] ].
  - intros n. unfold ViolationChart.colors_of. split.
    + rewrite encodeCategoryColor_length. apply length_seq.
    + intros i Hi.
      assert (Hnth : nth_error (range n) i = Some i).
      { unfold range. rewrite nth_error_seq.
        destruct (Nat.ltb_spec i n); [reflexivity | lia]. }
      destruct (encodeCategoryColor_emphasis
                  ViolationChart.emphasis_color ViolationChart.neutral_color
                  ViolationChart.is_first (range n) i i) as [He Hn];
        [ discriminate | exact Hnth | ].
      unfold ViolationChart.is_first in He, Hn.
      rewrite He, Hn, Nat.eqb_eq, Nat.eqb_neq. split; reflexivity.
  - intros findings. unfold KeywordChart.colors_of. split.
    + apply encodeCategoryColor_length.
    + intros i kw Hkw.
      destruct (encodeCategoryColor_emphasis
                  KeywordChart.emphasis_color KeywordChart.neutral_color
                  KeywordChart.is_emphasised findings i kw) as [He Hn];
        [ discriminate | exact Hkw | ].
      unfold KeywordChart.is_emphasised in He, Hn.
      rewrite He, Hn, py_in_In, py_in_not_In. split; reflexivity.
  - reflexivity.
  - reflexivity.
  - unfold measure_at. simpl. repeat constructor; discriminate.
  - reflexivity.
Qed.

(** ** Growth chart *)

(** C1 (as the page has it). The growth colour is one of two fixed
    colours, and zero goes with the decreases: a delta gets the colour of
    0, which is the colour of -1 ("#059669"), exactly when it is zero or
    below, and the colour of +1 ("#dc2626") exactly when it is above zero;
    the two colours differ. *)
Theorem encodeSignedColor_zero_with_decrease (g : Z) :
  (GrowthChart.encodeSignedColor g = "#dc2626" \/
   GrowthChart.encodeSignedColor g = "#059669") /\
  (GrowthChart.encodeSignedColor g = GrowthChart.encodeSignedColor 0
   <-> g <= 0) /\
  (GrowthChart.encodeSignedColor g = GrowthChart.encodeSignedColor 1
   <-> 0 < g) /\
  GrowthChart.encodeSignedColor 0 = GrowthChart.encodeSignedColor (-1) /\
  GrowthChart.encodeSignedColor 0 = "#059669" /\
  GrowthChart.encodeSignedColor 1 = "#dc2626" /\
  GrowthChart.colors = ["#dc2626"; "#059669"; "#059669"; "#059669"].
Proof.
  assert (H0 : GrowthChart.encodeSignedColor 0 = "#059669") by reflexivity.
  assert (H1 : GrowthChart.encodeSignedColor 1 = "#dc2626") by reflexivity.
  rewrite H0, H1.
  assert (Hg : (0 < g /\ GrowthChart.encodeSignedColor g = "#dc2626") \/
               (g <= 0 /\ GrowthChart.encodeSignedColor g = "#059669")).
  { unfold GrowthChart.encodeSignedColor.
    destruct (Z.gtb_spec g 0) as [Hpos | Hle];
      [left | right]; split; try reflexivity; lia. }
  destruct Hg as [[Hs Hc] | [Hs Hc]]; rewrite Hc.
  - split; [left; reflexivity | ].
    split; [split; [discriminate | lia] | ].
    split; [split; [intros _; exact Hs | reflexivity] | ].
    repeat split; reflexivity.
  - split; [right; reflexivity | ].
    split; [split; [intros _; exact Hs | reflexivity] | ].
    split; [split; [discriminate | lia] | ].
    repeat split; reflexivity.
Qed.

(** C1, the boundary as the specification words it, refuted: 0 and +1
    get different colours. *)
Lemma encodeSignedColor_zero_differs_from_positive :
  GrowthChart.encodeSignedColor 0 <> GrowthChart.encodeSignedColor 1.
Proof. discriminate. Qed.

(** String concatenation is associative. *)
Lemma string_append_assoc (a b c : string) : (a ++ b) ++ c = a ++ (b ++ c).
Proof.
  induction a as [ | ch a IH]; simpl; [reflexivity | now rewrite IH].
Qed.

(** The digits of a number read back as that number. *)
Lemma decimal_digits_read_back (n : N) :
  option_map N.of_uint (NilZero.uint_of_string (decimal_digits n)) = Some n.
Proof.
  unfold decimal_digits.
  rewrite NilZero.usu.
  - simpl. f_equal. apply DecimalN.Unsigned.of_to.
  - destruct n as [ | p]; simpl.
    + discriminate.
    + apply DecimalPos.Unsigned.to_uint_nonnil.
Qed.

(** C2. The signed percent label of an integer delta is a sign ([-] below
    zero, [+] for zero and above), the decimal digits of the magnitude and
    a closing percent glyph; 33 gives "+33%", -57 gives "-57%" and 0 gives
    "+0%".  The bar text of the growth chart is this label inside bold
    markup. *)
Theorem formatSignedPercentLabel_signed (g : Z) :
  (exists digits : string,
      GrowthChart.formatSignedPercentLabel g
      = String (if g <? 0 then "-"%char else "+"%char) (digits ++ "%") /\
      option_map N.of_uint (NilZero.uint_of_string digits)
      = Some (Z.abs_N g)) /\
  GrowthChart.bar_text g
  = "<b>" ++ GrowthChart.formatSignedPercentLabel g ++ "</b>" /\
  GrowthChart.formatSignedPercentLabel 33 = "+33%" /\
  GrowthChart.formatSignedPercentLabel (-57) = "-57%" /\
  GrowthChart.formatSignedPercentLabel 0 = "+0%" /\
  GrowthChart.text = ["<b>+33%</b>"; "<b>-57%</b>"; "<b>+0%</b>"; "<b>+0%</b>"].
Proof.
  split; [ | split; [ | repeat split ] ].
  - exists (decimal_digits (Z.abs_N g)). split.
    + unfold GrowthChart.formatSignedPercentLabel, format_plus_d.
      destruct (g <? 0); reflexivity.
    + apply decimal_digits_read_back.
  - unfold GrowthChart.bar_text, GrowthChart.formatSignedPercentLabel.
    rewrite (string_append_assoc (format_plus_d g) "%" "</b>").
    reflexivity.
Qed.

(** ** Sophistication ratio *)

Module SophisticationFacts.
Import Sophistication.

(** The arm taken, read as colour and interpretation. *)
Lemma branch_reading (ratio : float) :
  branch (ratio_gt_1 ratio)
  = (color_of (interpretRatio ratio),
     interpretation_of (interpretRatio ratio)).
Proof. unfold interpretRatio. destruct (ratio_gt_1 ratio); reflexivity. Qed.

(** The body on a float cell never raises. *)
Lemma body_float (region : string) (ratio : float) :
  body (region, PyFloat ratio)
  = inr {| blk_region := region;
           blk_color := color_of (interpretRatio ratio);
           blk_ratio := PyFloat ratio;
           blk_interpretation := interpretation_of (interpretRatio ratio) |}.
Proof.
  unfold body. simpl. unfold interpretRatio.
  destruct (ratio_gt_1 ratio); reflexivity.
Qed.

(** The body on a cell it can show yields the row's block. *)
Lemma body_renderable (row : Row) :
  renderable (snd row) = true -> body row = inr (block_of row).
Proof.
  destruct row as [region [f | z | s | ]]; simpl; intros H;
    try discriminate H; unfold body, block_of; simpl.
  - destruct (ratio_gt_1 f); reflexivity.
  - apply negb_true_iff in H. rewrite H.
    destruct (z >? 1); reflexivity.
Qed.




End SophisticationFacts.

(** C3. The reading of a ratio is a pure comparison with 1: every ratio
    above 1 is read ABOVE, shown in "#059669" with the label "More complex
    than basic", and every ratio below 1 is read BELOW, shown in "#dc2626"
    with the label "More basic than complex" (the specification's wordings
    up to the capital letter); 1.08 is read ABOVE and 0.67 BELOW. *)
Theorem interpretRatio_threshold (region : string) (hi lo : float)
  (Hhi : (1 <? hi)%float = true) (Hlo : (lo <? 1)%float = true) :
  Sophistication.interpretRatio hi = Sophistication.ABOVE /\
  Sophistication.body (region, PyFloat hi)
  = inr {| Sophistication.blk_region := region;
           Sophistication.blk_color := "#059669";
           Sophistication.blk_ratio := PyFloat hi;
           Sophistication.blk_interpretation := "More complex than basic" |}
  /\
  Sophistication.interpretRatio lo = Sophistication.BELOW /\
  Sophistication.body (region, PyFloat lo)
  = inr {| Sophistication.blk_region := region;
           Sophistication.blk_color := "#dc2626";
           Sophistication.blk_ratio := PyFloat lo;
           Sophistication.blk_interpretation := "More basic than complex" |}
  /\
  lower "More complex than basic" = "more complex than basic" /\
  lower "More basic than complex" = "more basic than complex" /\
  Sophistication.interpretRatio 1.08 = Sophistication.ABOVE /\
  Sophistication.interpretRatio 0.67 = Sophistication.BELOW.
Proof.
  assert (Ha : Sophistication.interpretRatio hi = Sophistication.ABOVE).
  { unfold Sophistication.interpretRatio, Sophistication.ratio_gt_1.
    now rewrite Hhi. }
  assert (Hb : Sophistication.interpretRatio lo = Sophistication.BELOW).
  { unfold Sophistication.interpretRatio, Sophistication.ratio_gt_1.
    now rewrite (float_ltb_asym lo 1 Hlo). }
  rewrite !SophisticationFacts.body_float, Ha, Hb.
  repeat split; reflexivity.
Qed.

(** The readings of India's 1.08 and China's 0.67. *)
Lemma interpretRatio_threshold_witness :
  Sophistication.interpretRatio 1.08 = Sophistication.ABOVE /\
  Sophistication.interpretRatio 0.67 = Sophistication.BELOW.
Proof.
  pose proof (interpretRatio_threshold "India" 1.08 0.67
                eq_refl eq_refl) as H.
  split; [exact (proj1 H) | exact (proj1 (proj2 (proj2 H)))].
Defined.

(** C9. A ratio of exactly 1.0 takes the else arm, as every ratio below 1
    does: the same colour "#dc2626" and the same label "More basic than
    complex".  The test is the strict [ratio > 1], false at 1.0, where the
    non-strict comparison holds. *)
Theorem ratio_one_reads_below (region : string) (lo : float)
  (Hlo : (lo <? 1)%float = true) :
  Sophistication.ratio_gt_1 1 = false /\
  (1 <=? 1)%float = true /\
  Sophistication.interpretRatio 1 = Sophistication.BELOW /\
  Sophistication.body (region, PyFloat 1)
  = inr {| Sophistication.blk_region := region;
           Sophistication.blk_color := "#dc2626";
           Sophistication.blk_ratio := PyFloat 1;
           Sophistication.blk_interpretation := "More basic than complex" |}
  /\
  Sophistication.body (region, PyFloat lo)
  = inr {| Sophistication.blk_region := region;
           Sophistication.blk_color := "#dc2626";
           Sophistication.blk_ratio := PyFloat lo;
           Sophistication.blk_interpretation := "More basic than complex" |}.
Proof.
  assert (Hb : Sophistication.interpretRatio lo = Sophistication.BELOW).
  { unfold Sophistication.interpretRatio, Sophistication.ratio_gt_1.
    now rewrite (float_ltb_asym lo 1 Hlo). }
  rewrite !SophisticationFacts.body_float, Hb.
  repeat split; reflexivity.
Qed.

(** China's 0.67 is shown as a ratio of exactly 1.0 would be. *)
Lemma ratio_one_reads_below_witness :
  Sophistication.body ("China", PyFloat 0.67)
  = inr {| Sophistication.blk_region := "China";
           Sophistication.blk_color := "#dc2626";
           Sophistication.blk_ratio := PyFloat 0.67;
           Sophistication.blk_interpretation := "More basic than complex" |}.
Proof.
  exact (proj2 (proj2 (proj2 (proj2
    (ratio_one_reads_below "China" 0.67 eq_refl))))).
Defined.



(** The loop on a table whose second ratio is an int beyond the doubles:
    the first block is shown, then the f-string raises. *)
Example render_overflow_cell :
  Sophistication.render
    [("United States", PyFloat 0.94); ("India", PyInt (10 ^ 400));
     ("China", PyFloat 0.67)]
  = ([{| Sophistication.blk_region := "United States";
         Sophistication.blk_color := "#dc2626";
         Sophistication.blk_ratio := PyFloat 0.94;
         Sophistication.blk_interpretation := "More basic than complex" |}],
     Some (OverflowError "int too large to convert to float")).
Proof. vm_compute. reflexivity. Qed.

(** The largest int that still has a float, and the first that has none. *)
Example int_too_large_threshold :
  Sophistication.int_too_large (2 ^ 1024 - 2 ^ 970 - 1) = false /\
  Sophistication.int_too_large (2 ^ 1024 - 2 ^ 970) = true /\
  Sophistication.int_too_large (- (2 ^ 1024 - 2 ^ 970)) = true /\
  Sophistication.int_too_large (2 ^ 53 + 1) = false.
Proof. vm_compute. repeat split. Qed.


(** ** Consistency of the literal tables *)

(** C10. The audit trail column of the facility table sums to 49, the
    count of "Audit Trail Failures" in the violation table; the other
    column sums to 92; together they make [TOTAL_OBSERVATIONS], 141. *)
Theorem facility_columns_match_total :
  column_sum (Audit_Trail_Violations facility_data) = 49 /\
  cell_at (Violation_Type violation_data) (Count violation_data)
    "Audit Trail Failures"
  = Some (column_sum (Audit_Trail_Violations facility_data)) /\
  column_sum (Other_CSV_Violations facility_data) = 92 /\
  column_sum (Audit_Trail_Violations facility_data)
  + column_sum (Other_CSV_Violations facility_data) = TOTAL_OBSERVATIONS /\
  TOTAL_OBSERVATIONS = 141.
Proof. repeat split; reflexivity. Qed.

(** ** Percentages of the violation table *)

(** C4. For every row of the violation table (counts 49, 40, 24, 24, 24,
    22, 21, 19, 8 with percentages 34.8, 28.4, 17.0, 17.0, 17.0, 15.6,
    14.9, 13.5, 5.7) the percentage is within 0.05 of count / 141 * 100:
    both when the test is run in binary64, as Python would, and for the
    exact value of the stored double in exact arithmetic. *)
Theorem violation_percentages_within_tolerance :
  Count violation_data = [49; 40; 24; 24; 24; 22; 21; 19; 8] /\
  Percentage violation_data
  = [34.8; 28.4; 17.0; 17.0; 17.0; 15.6; 14.9; 13.5; 5.7]%float /\
  List.length (violation_rows violation_data) = 9%nat /\
  Forall (fun row => within_tolerance_float TOTAL_OBSERVATIONS row = true)
    (violation_rows violation_data) /\
  Forall (within_tolerance TOTAL_OBSERVATIONS)
    (violation_rows violation_data).
Proof.
  split; [reflexivity | split; [reflexivity | split; [reflexivity | ] ] ].
  split.
  - repeat constructor.
  - unfold violation_rows, zip. simpl.
    repeat constructor;
      (eexists; split;
       [ vm_compute; reflexivity
       | apply Qle_bool_iff; vm_compute; reflexivity ]).
Qed.

(** ** Growth table *)

(** C7 (as the table has it). Every stored growth percentage is
    (B - A) / A * 100 rounded to the nearest integer, less than one half
    away from the exact value and with its sign; the rows (9, 12), (7, 3),
    (4, 4), (7, 7) store 33, -57, 0, 0. *)
Theorem growth_pct_is_rounded :
  growth_rows growth_data = [(9, 12, 33); (7, 3, -57); (4, 4, 0); (7, 7, 0)] /\
  Forall growth_rounded (growth_rows growth_data).
Proof.
  split; [reflexivity | ].
  unfold growth_rows, zip. simpl.
  repeat constructor.
Qed.

(** C7, as the specification words it, refuted: the stored 33 of the row
    (9, 12) is not (12 - 9) / 9 * 100, which is 100/3. *)
Lemma growth_pct_not_exact :
  ~ Forall growth_exact (growth_rows growth_data).
Proof.
  intros H. inversion H as [ | row rest Hrow Hrest]; subst.
  unfold growth_exact in Hrow. vm_compute in Hrow. discriminate Hrow.
Qed.

(** ** Ranking *)

Section Ranking.

Variable m : nat -> Z.

(** Insertion adds the index and keeps the others. *)
Lemma rank_insert_perm (i : nat) (ranked : list nat) :
  Permutation (rank_insert m i ranked) (i :: ranked).
Proof.
  induction ranked as [ | j rest IH]; simpl.
  - apply Permutation_refl.
  - destruct (m j <=? m i).
    + apply Permutation_refl.
    + apply Permutation_trans with (j :: i :: rest).
      * apply perm_skip. exact IH.
      * apply perm_swap.
Qed.

(** An index earlier than all the ranked ones goes to its place: the
    result is ranked again. *)
Lemma rank_insert_sorted (i : nat) (ranked : list nat) :
  Forall (fun j => (i < j)%nat) ranked ->
  StronglySorted (ranked_before m) ranked ->
  StronglySorted (ranked_before m) (rank_insert m i ranked).
Proof.
  induction ranked as [ | j rest IH]; intros Hlater Hsorted; simpl.
  - constructor; constructor.
  - inversion Hlater as [ | j' rest' Hij Hrest]; subst.
    inversion Hsorted as [ | j' rest' Hsrest Hjrest]; subst.
    destruct (Z.leb_spec (m j) (m i)) as [Hle | Hgt].
    + constructor; [exact Hsorted | ].
      assert (Hj : ranked_before m i j).
      { unfold ranked_before. destruct (Z.eq_dec (m i) (m j)) as [He | Hn].
        - right. split; assumption.
        - left. lia. }
      constructor; [exact Hj | ].
      rewrite Forall_forall in *. intros x Hx.
      specialize (Hjrest x Hx). specialize (Hrest x Hx).
      unfold ranked_before in *.
      destruct (Z.eq_dec (m i) (m x)) as [He | Hn].
      * right. split; assumption.
      * left. lia.
    + constructor.
      * apply IH; assumption.
      * apply (Permutation_Forall
                 (Permutation_sym (rank_insert_perm i rest))).
        constructor; [ | exact Hjrest].
        unfold ranked_before. left. lia.
Qed.

(** Ranking the indices [k, k + n): a rearrangement of them, in rank
    order. *)
Lemma rank_seq (n : nat) :
  forall k : nat,
    Permutation (fold_right (rank_insert m) [] (seq k n)) (seq k n) /\
    StronglySorted (ranked_before m)
      (fold_right (rank_insert m) [] (seq k n)).
Proof.
  induction n as [ | n IH]; intros k; simpl.
  - split; constructor.
  - destruct (IH (S k)) as [Hperm Hsorted]. split.
    + apply Permutation_trans
        with (k :: fold_right (rank_insert m) [] (seq (S k) n)).
      * apply rank_insert_perm.
      * apply perm_skip. exact Hperm.
    + apply rank_insert_sorted; [ | exact Hsorted].
      apply (Permutation_Forall (Permutation_sym Hperm)).
      rewrite Forall_forall. intros x Hx. apply in_seq in Hx. lia.
Qed.

End Ranking.

(** C6. Ranking the violation table by count (49, 40, 24, 24, 24, 22, 21,
    19, 8) puts row 0, "Audit Trail Failures" with the largest count,
    first, and the three rows of count 24 in table order, 2, 3, 4.  The
    ranking of any column is a rearrangement of its row indices in which
    an index stands before another only with a larger measure or, at the
    same measure, as the earlier row.  The row ranked first is the one the
    violation chart emphasises. *)
Theorem rankRows_violation_counts :
  Count violation_data = [49; 40; 24; 24; 24; 22; 21; 19; 8] /\
  rankRows (Count violation_data) = [0; 1; 2; 3; 4; 5; 6; 7; 8]%nat /\
  hd_error (rankRows (Count violation_data)) = Some 0%nat /\
  nth_error (Violation_Type violation_data) 0 = Some "Audit Trail Failures" /\
  Forall (fun c => c <= measure_at (Count violation_data) 0)
    (Count violation_data) /\
  filter (fun i => measure_at (Count violation_data) i =? 24)
    (rankRows (Count violation_data)) = [2; 3; 4]%nat /\
  option_map (fun i => nth_error ViolationChart.colors i)
    (hd_error (rankRows (Count violation_data)))
  = Some (Some ViolationChart.emphasis_color) /\
  forall col : list Z,
    Permutation (rankRows col) (range (List.length col)) /\
    StronglySorted (ranked_before (measure_at col)) (rankRows col).
Proof.
  repeat (split; [reflexivity | ]).
  split; [ unfold measure_at; simpl; repeat constructor; discriminate | ].
  repeat (split; [reflexivity | ]).
  intros col. apply rank_seq.
Qed.


(* ====================================================================== *)
(** * Further properties of the page's code *)
(* ====================================================================== *)

(** ** The comparison [ratio > 1] on every double *)

(** A value that is not NaN compares equal to itself. *)
Lemma SFcompare_refl (x : spec_float) :
  x <> S754_nan -> SFcompare x x = Some Eq.
Proof.
  destruct x as [s | s | | s m e]; simpl; intros H.
  - reflexivity.
  - destruct s; reflexivity.
  - now elim H.
  - rewrite Z.compare_refl, Pos.compare_cont_refl. destruct s; reflexivity.
Qed.

(** Only a NaN operand leaves a comparison with 1 unordered. *)
Lemma SFcompare_one_unordered (x : spec_float) :
  SFcompare (Prim2SF 1) x = None <-> x = S754_nan.
Proof.
  change (Prim2SF 1) with (S754_finite false 4503599627370496 (-52)).
  destruct x as [s | s | | s m e]; simpl; split; intros H;
    try discriminate H; reflexivity.
Qed.

(** [is_nan] on the specification side. *)
Lemma is_nan_spec (x : float) :
  is_nan x = true <-> Prim2SF x = S754_nan.
Proof.
  unfold is_nan. rewrite eqb_spec. unfold SFeqb. split.
  - intros H. destruct (Prim2SF x) as [s | s | | s m e] eqn:E;
      try reflexivity; exfalso;
      rewrite SFcompare_refl in H by discriminate; discriminate H.
  - intros ->. reflexivity.
Qed.

(** X3. The else arm of the ratio test is taken exactly by the ratios that
    are at most 1 and by NaN; the then arm exactly by the ratios above 1,
    positive infinity among them. *)
Theorem interpretRatio_below_iff (ratio : float) :
  (Sophistication.interpretRatio ratio = Sophistication.BELOW
   <-> (ratio <=? 1)%float = true \/ is_nan ratio = true) /\
  (Sophistication.interpretRatio ratio = Sophistication.ABOVE
   <-> (1 <? ratio)%float = true) /\
  Sophistication.interpretRatio infinity = Sophistication.ABOVE /\
  Sophistication.interpretRatio neg_infinity = Sophistication.BELOW.
Proof.
  split; [ | split; [ | split; reflexivity ] ].
  - unfold Sophistication.interpretRatio, Sophistication.ratio_gt_1.
    rewrite is_nan_spec, ltb_spec, leb_spec. unfold SFltb, SFleb.
    rewrite (SFcompare_swap (Prim2SF 1) (Prim2SF ratio)).
    pose proof (SFcompare_one_unordered (Prim2SF ratio)) as Hnan.
    destruct (SFcompare (Prim2SF 1) (Prim2SF ratio)) as [[ | | ] | ];
      simpl; split; intros H; try reflexivity; try discriminate H;
      try (left; reflexivity).
    + destruct H as [H | H]; [discriminate H | ].
      apply Hnan in H. discriminate H.
    + right. now apply Hnan.
  - unfold Sophistication.interpretRatio, Sophistication.ratio_gt_1.
    destruct (1 <? ratio)%float; split; intros H;
      try reflexivity; discriminate H.
Qed.

(** ** The ratio loop on every table *)

Module LoopFacts.
Import Sophistication.

(** Blocks on the page stay on the page, in place. *)
Lemma render_from_extends (rows : list Row) :
  forall page : list Block,
    exists more : list Block,
      fst (render_from page rows) = (page ++ more)%list /\
      (List.length more <= List.length rows)%nat.
Proof.
  induction rows as [ | row rest IH]; intros page; simpl.
  - exists []. split; [now rewrite app_nil_r | apply Nat.le_refl].
  - destruct (body row) as [e | b].
    + exists []. split; [now rewrite app_nil_r | apply Nat.le_0_l].
    + destruct (IH (page ++ [b])%list) as [more [Hmore Hlen]].
      exists (b :: more). split.
      * rewrite Hmore, <- app_assoc. reflexivity.
      * simpl. now apply le_n_S.
Qed.


(** A property of the two possible encodings holds of every block the
    loop adds. *)
Lemma render_from_blocks (P : Block -> Prop) :
  (forall row b, body row = inr b -> P b) ->
  forall (rows : list Row) (page : list Block),
    Forall P page -> Forall P (fst (render_from page rows)).
Proof.
  intros Hbody rows.
  induction rows as [ | row rest IH]; intros page Hpage; simpl.
  - exact Hpage.
  - destruct (body row) as [e | b] eqn:Hb.
    + exact Hpage.
    + apply IH. apply Forall_app. split; [exact Hpage | ].
      constructor; [ | constructor]. exact (Hbody row b Hb).
Qed.

End LoopFacts.


(** X5. The loop works through a table front to back: after a stretch of
    rows whose ratios it can show (floats, ints that fit a double) it goes
    on with the rest exactly as a loop started on a page that already
    holds the blocks of that stretch; blocks once on the page are never
    taken back or moved. *)
Theorem render_from_app (page : list Sophistication.Block)
  (front back : list Sophistication.Row)
  (Hfront : Sophistication.all_renderable front = true) :
  Sophistication.render_from page (front ++ back)%list
  = Sophistication.render_from
      (page ++ map Sophistication.block_of front)%list back /\
  exists more : list Sophistication.Block,
    fst (Sophistication.render_from page (front ++ back)%list)
    = (page ++ map Sophistication.block_of front ++ more)%list /\
    (List.length more <= List.length back)%nat.
Proof.
  assert (Happ : Sophistication.render_from page (front ++ back)%list
    = Sophistication.render_from
        (page ++ map Sophistication.block_of front)%list back).
  { revert page. induction front as [ | row rest IH]; intros page; simpl.
    - now rewrite app_nil_r.
    - unfold Sophistication.all_renderable in Hfront. simpl in Hfront.
      apply andb_prop in Hfront. destruct Hfront as [Hrow Hrest].
      rewrite (SophisticationFacts.body_renderable row Hrow).
      rewrite (IH Hrest), <- app_assoc. reflexivity. }
  split; [exact Happ | ].
  rewrite Happ.
  destruct (LoopFacts.render_from_extends back
              (page ++ map Sophistication.block_of front)%list)
    as [more [Hmore Hlen]].
  exists more. split; [ | exact Hlen].
  rewrite Hmore, <- app_assoc. reflexivity.
Qed.

(** The literal table followed by one more row. *)
Lemma render_from_app_witness :
  Sophistication.render_from []
    (Sophistication.iterrows sophistication_data
     ++ [("Germany", PyFloat 1.5)])%list
  = Sophistication.render_from
      ([] ++ map Sophistication.block_of
               (Sophistication.iterrows sophistication_data))%list
      [("Germany", PyFloat 1.5)].
Proof.
  exact (proj1 (render_from_app []
                  (Sophistication.iterrows sophistication_data)
                  [("Germany", PyFloat 1.5)] eq_refl)).
Defined.

(** X6. Colour and label never disagree: every block the loop shows, on
    any table at all, is green with "More complex than basic" or red with
    "More basic than complex", and never has more blocks than rows. *)
Theorem render_blocks_coherent (rows : list Sophistication.Row) :
  Forall (fun b =>
            (Sophistication.blk_color b = "#059669" /\
             Sophistication.blk_interpretation b = "More complex than basic")
            \/
            (Sophistication.blk_color b = "#dc2626" /\
             Sophistication.blk_interpretation b = "More basic than complex"))
    (fst (Sophistication.render rows)) /\
  (List.length (fst (Sophistication.render rows)) <= List.length rows)%nat.
Proof.
  split.
  - unfold Sophistication.render.
    apply LoopFacts.render_from_blocks; [ | constructor].
    intros row b Hb. unfold Sophistication.body in Hb.
    destruct (Sophistication.py_gt_1 (snd row)) as [e | gt];
      [discriminate Hb | ].
    destruct gt; simpl in Hb;
      destruct (Sophistication.format_2f_error (snd row));
      try discriminate Hb; inversion Hb; subst; simpl;
      [left | right]; split; reflexivity.
  - unfold Sophistication.render.
    destruct (LoopFacts.render_from_extends rows []) as [more [Hmore Hlen]].
    rewrite Hmore. simpl. exact Hlen.
Qed.

(** ** The labels and colours of the growth chart, together *)

Lemma string_length_append (a b : string) :
  String.length (a ++ b) = (String.length a + String.length b)%nat.
Proof.
  induction a as [ | ch a IH]; simpl; [reflexivity | now rewrite IH].
Qed.

(** A common ending can be dropped from an equation of strings. *)
Lemma string_append_inv_tail (a b t : string) : a ++ t = b ++ t -> a = b.
Proof.
  revert b. induction a as [ | ch a IH]; intros [ | ch' b] H; simpl in H.
  - reflexivity.
  - exfalso. apply (f_equal String.length) in H. simpl in H.
    rewrite string_length_append in H. lia.
  - exfalso. apply (f_equal String.length) in H. simpl in H.
    rewrite string_length_append in H. lia.
  - inversion H as [[Hch Htail]]. f_equal. now apply IH.
Qed.

(** The digits determine the number. *)
Lemma decimal_digits_inj (a b : N) :
  decimal_digits a = decimal_digits b -> a = b.
Proof.
  intros H. pose proof (decimal_digits_read_back a) as Ha.
  rewrite H, decimal_digits_read_back in Ha. now inversion Ha.
Qed.

(** Sign and digits determine the integer. *)
Lemma format_plus_d_inj (g1 g2 : Z) :
  format_plus_d g1 = format_plus_d g2 -> g1 = g2.
Proof.
  unfold format_plus_d.
  destruct (Z.ltb_spec g1 0) as [H1 | H1], (Z.ltb_spec g2 0) as [H2 | H2];
    simpl; intros H; inversion H as [Hd];
    apply decimal_digits_inj in Hd;
    apply (f_equal Z.of_N) in Hd; rewrite !N2Z.inj_abs_N in Hd; lia.
Qed.

(** X1. The bar text of the growth chart tells the deltas apart: two
    deltas with the same text are the same integer, so the text of a
    column has as many different labels as the column has different
    deltas. *)
Theorem bar_text_injective (g1 g2 : Z) :
  (GrowthChart.bar_text g1 = GrowthChart.bar_text g2 <-> g1 = g2) /\
  (GrowthChart.formatSignedPercentLabel g1
   = GrowthChart.formatSignedPercentLabel g2 <-> g1 = g2).
Proof.
  split; (split; [ | intros ->; reflexivity]).
  - unfold GrowthChart.bar_text. intros H.
    inversion H as [Hrest].
    apply string_append_inv_tail in Hrest.
    now apply format_plus_d_inj.
  - unfold GrowthChart.formatSignedPercentLabel. intros H.
    apply string_append_inv_tail in H.
    now apply format_plus_d_inj.
Qed.

(** X2. Label and colour of a growth bar, side by side: below zero the
    label has a minus sign and the bar the colour "#059669"; above zero
    the label has a plus sign and the bar the colour "#dc2626"; at zero the
    label is "+0%", with a plus sign, in the colour of the decreases.  The
    colour list has one entry per label. *)
Theorem growth_label_and_color (g : Z) :
  ((g < 0 /\
    GrowthChart.encodeSignedColor g = "#059669" /\
    exists digits, GrowthChart.bar_text g = "<b>-" ++ digits ++ "%</b>") \/
   (g = 0 /\
    GrowthChart.encodeSignedColor g = "#059669" /\
    GrowthChart.bar_text g = "<b>+0%</b>") \/
   (0 < g /\
    GrowthChart.encodeSignedColor g = "#dc2626" /\
    exists digits, GrowthChart.bar_text g = "<b>+" ++ digits ++ "%</b>")) /\
  forall col : list Z,
    List.length (GrowthChart.colors_of col)
    = List.length (GrowthChart.text_of col).
Proof.
  split.
  - unfold GrowthChart.encodeSignedColor, GrowthChart.bar_text,
      format_plus_d.
    destruct (Z.lt_trichotomy g 0) as [Hneg | [Hzero | Hpos]].
    + left. split; [exact Hneg | ].
      destruct (Z.gtb_spec g 0) as [Hgt | _]; [lia | ].
      destruct (Z.ltb_spec g 0) as [_ | Hge]; [ | lia].
      split; [reflexivity | ].
      exists (decimal_digits (Z.abs_N g)). reflexivity.
    + right. left. subst g. repeat split; reflexivity.
    + right. right. split; [exact Hpos | ].
      destruct (Z.gtb_spec g 0) as [_ | Hle]; [ | lia].
      destruct (Z.ltb_spec g 0) as [Hlt | _]; [lia | ].
      split; [reflexivity | ].
      exists (decimal_digits (Z.abs_N g)). reflexivity.
  - intros col. unfold GrowthChart.colors_of, GrowthChart.text_of.
    now rewrite !length_map.
Qed.

(** ** The ratio as printed, [{ratio:.2f}] *)

(** Rounding moves a rational by at most one half. *)
Lemma round_half_even_close (q : Q) :
  (Qabs (inject_Z (round_half_even q) - q) <= 1 # 2)%Q.
Proof.
  unfold round_half_even.
  pose proof (Qfloor_le q) as Hle. pose proof (Qlt_floor q) as Hlt.
  rewrite inject_Z_plus in Hlt. change (inject_Z 1) with 1%Q in Hlt.
  destruct (Qcompare_spec (q - inject_Z (Qfloor q)) (1 # 2)) as [He | Hl | Hg];
    [ destruct (Z.even (Qfloor q)) | | ];
    rewrite ?inject_Z_plus; change (inject_Z 1) with 1%Q;
    apply Qabs_Qle_condition; split; lra.
Qed.

(** Rounding keeps a rational that is not negative from going below 0. *)
Lemma round_half_even_nonneg (q : Q) :
  (0 <= q)%Q -> 0 <= round_half_even q.
Proof.
  intros Hq.
  assert (Hf : 0 <= Qfloor q).
  { change 0 with (Qfloor 0). now apply Qfloor_resp_le. }
  unfold round_half_even.
  destruct (Qcompare (q - inject_Z (Qfloor q)) (1 # 2));
    [ destruct (Z.even (Qfloor q)) | | ]; lia.
Qed.

(** The text of a finite double: sign and hundredths, the hundredths
    within half a hundredth of the magnitude. *)
Lemma format_2f_finite (x : float) (q : Q) :
  float_to_Q x = Some q ->
  exists (neg : bool) (n : N),
    format_2f x = fixed_2 neg n /\
    (Qabs (inject_Z (Z.of_N n) / 100 - Qabs q) <= 1 # 200)%Q /\
    (if neg then q <= 0 else 0 <= q)%Q.
Proof.
  intros Hx.
  unfold float_to_Q in Hx. unfold format_2f.
  destruct (Prim2SF x) as [s | s | | s m e]; try discriminate Hx.
  - inversion Hx; subst q. exists s, 0%N.
    split; [reflexivity | split].
    + apply Qabs_Qle_condition. split; reflexivity || discriminate.
    + destruct s; apply Qle_refl.
  - set (v := (inject_Z (Z.pos m) * Qpower 2 e)%Q) in *.
    assert (Hv : (0 < v)%Q).
    { unfold v. apply Qmult_lt_0_compat; [reflexivity | ].
      apply Qpower_0_lt. reflexivity. }
    assert (Hq : (Qabs q == v)%Q /\ (if s then q <= 0 else 0 <= q)%Q).
    { inversion Hx as [Hxq]. clear Hx. destruct s.
      - assert (Hneg : (inject_Z (Z.neg m) * Qpower 2 e == - v)%Q).
        { unfold v.
          change (inject_Z (Z.neg m)) with (- inject_Z (Z.pos m))%Q. ring. }
        rewrite Hneg. split; [rewrite Qabs_neg; lra | lra].
      - fold v. split; [rewrite Qabs_pos; lra | lra]. }
    destruct Hq as [Habs Hsign].
    pose proof (round_half_even_close (v * 100)%Q) as Hclose.
    pose proof (round_half_even_nonneg (v * 100)%Q) as Hnn.
    exists s, (Z.to_N (round_half_even (v * 100)%Q)).
    split; [reflexivity | split; [ | exact Hsign] ].
    rewrite Z2N.id by (apply Hnn; lra).
    rewrite Habs.
    apply Qabs_Qle_condition in Hclose.
    apply Qabs_Qle_condition.
    set (r := inject_Z (round_half_even (v * 100)%Q)) in *.
    clearbody r. clear Hnn Habs Hsign. clearbody v.
    unfold Qdiv. change (/ 100)%Q with (1 # 100)%Q.
    split; lra.
Qed.


(** X7. The ratio as printed by [.2f]: for every finite double the text is
    a sign and a count of hundredths in fixed notation, the count within
    half a hundredth of the magnitude of the double, the sign that of the
    double.  NaN prints as "nan".  So a ratio just above 1, such as 1.004,
    is printed "1.00" while it is read as above 1. *)
Theorem format_2f_nearest_hundredth (x : float) (q : Q)
  (Hx : float_to_Q x = Some q) :
  (exists (neg : bool) (n : N),
      format_2f x = fixed_2 neg n /\
      (Qabs (inject_Z (Z.of_N n) / 100 - Qabs q) <= 1 # 200)%Q /\
      (if neg then q <= 0 else 0 <= q)%Q) /\
  format_2f nan = "nan" /\
  format_2f 1 = "1.00" /\
  format_2f 1.004 = "1.00" /\
  Sophistication.interpretRatio 1.004 = Sophistication.ABOVE.
Proof.
  split; [exact (format_2f_finite x q Hx) | repeat split; reflexivity].
Qed.

(** India's ratio, 1.08, is printed as "1.08". *)
Lemma format_2f_nearest_hundredth_witness :
  exists (neg : bool) (n : N),
    format_2f 1.08 = fixed_2 neg n /\
    (Qabs (inject_Z (Z.of_N n) / 100
           - Qabs (4863887597560136 # 4503599627370496)) <= 1 # 200)%Q /\
    (if neg then (4863887597560136 # 4503599627370496) <= 0
     else 0 <= (4863887597560136 # 4503599627370496))%Q.
Proof.
  exact (proj1 (format_2f_nearest_hundredth 1.08
                  (4863887597560136 # 4503599627370496) eq_refl)).
Defined.

(** ** How many bars are emphasised *)

Section EmphasisCount.

Context {A : Type}.
Variables emphasis neutral : string.
Variable highlightPredicate : A -> bool.
Hypothesis colours_differ : emphasis <> neutral.

(** The emphasised bars are the rows on which the predicate holds. *)
Lemma emphasis_count (xs : list A) :
  bars_of_color emphasis
    (encodeCategoryColor emphasis neutral highlightPredicate xs)
  = List.length (filter highlightPredicate xs).
Proof.
  unfold bars_of_color, encodeCategoryColor.
  induction xs as [ | x xs IH]; simpl; [reflexivity | ].
  destruct (highlightPredicate x); simpl.
  - destruct (string_dec emphasis emphasis) as [_ | Hne];
      [now rewrite IH | now elim Hne].
  - destruct (string_dec neutral emphasis) as [Heq | _];
      [now elim colours_differ | exact IH].
Qed.

End EmphasisCount.

(** From index 1 on, no index is the first. *)
Lemma filter_is_first_later (n : nat) :
  forall k : nat, filter ViolationChart.is_first (seq (S k) n) = [].
Proof.
  induction n as [ | n IH]; intros k; simpl; [reflexivity | apply IH].
Qed.

(** Labels of zipped columns: as many as the shorter column has cells. *)
Lemma violation_text_length (float_str : float -> string)
  (counts : list Z) (percentages : list float) :
  List.length (violation_text_of float_str counts percentages)
  = Nat.min (List.length counts) (List.length percentages).
Proof.
  unfold violation_text_of, zip. rewrite length_map. apply length_combine.
Qed.

(** X8. Violation chart, for any table whose columns have one length:
    colours and bar texts are as many as the rows, the text of row [i] is
    built from the count and the percentage of row [i], and exactly one bar
    has the emphasis colour, none when the table is empty, whatever the
    counts are. *)
Theorem violation_chart_aligned (float_str : float -> string)
  (df : ViolationFrame)
  (Hcount : List.length (Count df) = len_violation df)
  (Hpct : List.length (Percentage df) = len_violation df) :
  List.length (ViolationChart.colors_of (len_violation df))
  = len_violation df /\
  List.length (violation_text_of float_str (Count df) (Percentage df))
  = len_violation df /\
  (forall (i : nat) (c : Z) (p : float),
      nth_error (Count df) i = Some c ->
      nth_error (Percentage df) i = Some p ->
      nth_error (violation_text_of float_str (Count df) (Percentage df)) i
      = Some ("<b>" ++ format_d c ++ "</b> (" ++ float_str p ++ "%)")) /\
  bars_of_color ViolationChart.emphasis_color
    (ViolationChart.colors_of (len_violation df))
  = Nat.min (len_violation df) 1.
Proof.
  split; [ | split; [ | split ] ].
  - unfold ViolationChart.colors_of, range.
    now rewrite encodeCategoryColor_length, length_seq.
  - rewrite violation_text_length, Hcount, Hpct. apply Nat.min_id.
  - intros i c p Hc Hp. clear Hcount Hpct.
    unfold violation_text_of, zip. rewrite nth_error_map.
    assert (Hzip : nth_error (combine (Count df) (Percentage df)) i
                   = Some (c, p)).
    { revert i Hc Hp. generalize (Count df) (Percentage df).
      induction l as [ | c' cs IH]; intros [ | p' ps] [ | i] Hc Hp;
        simpl in *; try discriminate.
      - now inversion Hc; inversion Hp.
      - now apply IH. }
    now rewrite Hzip.
  - unfold ViolationChart.colors_of.
    rewrite emphasis_count by discriminate.
    unfold range. destruct (len_violation df) as [ | n]; simpl.
    + reflexivity.
    + rewrite filter_is_first_later, ?Nat.min_0_r. reflexivity.
Qed.

(** The literal violation table, with any printing of floats. *)
Lemma violation_chart_aligned_witness :
  List.length (ViolationChart.colors_of (len_violation violation_data))
  = len_violation violation_data.
Proof.
  exact (proj1 (violation_chart_aligned (fun _ => "") violation_data
                  eq_refl eq_refl)).
Defined.

(** X9. Keyword chart: for any list of findings the emphasised bars are as
    many as the findings that are in the emphasis list, and the texts as
    many as the percentages.  Each of the three labels of the emphasis list
    is the label of a row of the keyword table and the labels of the table
    are all different, so three bars of the page are emphasised. *)
Theorem keyword_emphasis_hits :
  (forall findings : list string,
      bars_of_color KeywordChart.emphasis_color
        (KeywordChart.colors_of findings)
      = List.length (filter KeywordChart.is_emphasised findings)) /\
  (forall (float_str : float -> string) (percentages : list float),
      List.length (keyword_text_of float_str percentages)
      = List.length percentages) /\
  Forall (fun kw => In kw (Finding keyword_data))
    KeywordChart.emphasis_set /\
  NoDup (Finding keyword_data) /\
  bars_of_color KeywordChart.emphasis_color KeywordChart.colors
  = List.length KeywordChart.emphasis_set.
Proof.
  split; [ | split; [ | split; [ | split ] ] ].
  - intros findings. unfold KeywordChart.colors_of.
    apply emphasis_count. discriminate.
  - intros float_str percentages. unfold keyword_text_of. apply length_map.
  - repeat constructor; simpl; tauto.
  - repeat constructor; simpl; intuition discriminate.
  - reflexivity.
Qed.

(** ** The tables behind the page *)

(** X10. Sophistication table: on every row the stored ratio is complex /
    basic to two decimals (within 0.005, on the exact values of the
    doubles), and the reading the loop gives the ratio says which
    percentage is the larger: "More complex than basic" exactly on the
    rows whose complex percentage exceeds the basic one.  The loop prints
    the ratios as they are written in the table: 0.94, 1.08, 0.67. *)
Theorem sophistication_ratio_consistent :
  List.length (sophistication_rows sophistication_data)
  = List.length (Region sophistication_data) /\
  map format_2f (Sophistication_Ratio sophistication_data)
  = ["0.94"; "1.08"; "0.67"] /\
  Forall ratio_consistent (sophistication_rows sophistication_data).
Proof.
  split; [reflexivity | split; [reflexivity | ] ].
  unfold sophistication_rows, zip. simpl.
  repeat constructor;
    try (eexists; eexists; eexists;
         split; [vm_compute; reflexivity | ];
         split; [vm_compute; reflexivity | ];
         split; [vm_compute; reflexivity | ];
         split; [reflexivity | ];
         apply Qle_bool_iff; vm_compute; reflexivity);
    try (intros _; reflexivity);
    try (intros H; discriminate H).
Qed.

(** X11. Yearly table and the annotation of its chart: the years are in
    increasing order, the annotation is anchored at the point of 2024,
    whose count 23 is the largest of the series, and the whole percent it
    shows, 187, is the growth over the count of 2023 cut to a whole number
    (the growth is 187.5; rounding as in the growth table would give
    188). *)
Theorem yearly_annotation_anchored :
  (exists years : list Z,
      map year_number (Year yearly_data) = map Some years /\
      increasing years = true) /\
  cell_at (Year yearly_data) (Observations yearly_data) spike_annotation_x
  = Some spike_annotation_y /\
  Forall (fun n => 0 <= n <= spike_annotation_y) (Observations yearly_data) /\
  (exists prior : Z,
      cell_at (Year yearly_data) (Observations yearly_data) "2023"
      = Some prior /\
      (growth_formula prior spike_annotation_y == 375 # 2)%Q /\
      spike_annotation_pct = Qfloor (growth_formula prior spike_annotation_y) /\
      nearest_integer (growth_formula prior spike_annotation_y)
      = spike_annotation_pct + 1).
Proof.
  split; [ | split; [ | split ] ].
  - exists [2020; 2021; 2022; 2023; 2024; 2025]. split; reflexivity.
  - reflexivity.
  - repeat constructor; discriminate.
  - exists 8. repeat split.
Qed.

(** X12. Geographic table: the observations of the regions add up to
    [TOTAL_OBSERVATIONS]; every percentage is within 0.1 of the region's
    share of the total and the percentages add up to 100 (to within
    1e-12, on the exact values of the doubles); the last row, "Other
    Regions", is not the share rounded to one decimal: 13.4 is more than
    0.05 away from 19 / 141 * 100. *)
Theorem geo_table_consistent :
  column_sum (Geo_Observations geo_data) = TOTAL_OBSERVATIONS /\
  Forall (within (1 # 10) TOTAL_OBSERVATIONS) (geo_rows geo_data) /\
  (exists t : Q,
      exact_sum (Geo_Percentage geo_data) = Some t /\
      (Qabs (t - 100) <= 1 # 1000000000000)%Q) /\
  last (geo_rows geo_data) (0, 0%float) = (19, 13.4%float) /\
  ~ within (5 # 100) TOTAL_OBSERVATIONS (19, 13.4%float).
Proof.
  split; [reflexivity | split; [ | split; [ | split ] ] ].
  - unfold geo_rows, zip. simpl.
    repeat constructor;
      (eexists; split;
       [ vm_compute; reflexivity
       | apply Qle_bool_iff; vm_compute; reflexivity ]).
  - eexists. split; [vm_compute; reflexivity | ].
    apply Qle_bool_iff. vm_compute. reflexivity.
  - reflexivity.
  - intros [p [Hp Hle]]. vm_compute in Hp. inversion Hp; subst p.
    apply Qle_bool_iff in Hle. vm_compute in Hle. discriminate Hle.
Qed.

(** ** The comparison [ratio > 1] and the exact value of the ratio *)

Lemma digits2_pos_size (m : positive) : digits2_pos m = Pos.size m.
Proof. induction m as [m IH | m IH | ]; simpl; now rewrite ?IH. Qed.

(** The mantissa of a double against the power of two of its size. *)
Lemma mantissa_size_bounds (m : positive) :
  Z.pos m < 2 ^ Z.pos (Pos.size m) <= 2 * Z.pos m.
Proof.
  pose proof (Pos.size_gt m) as Hgt. pose proof (Pos.size_le m) as Hle.
  rewrite <- Pos2Z.inj_pow. split.
  - exact Hgt.
  - change (2 * Z.pos m) with (Z.pos m~0). exact Hle.
Qed.

(** [m * 2^e > 1] in integers. *)
Lemma scaled_gt_one (m : positive) (e : Z) :
  (1 < inject_Z (Z.pos m) * Qpower 2 e)%Q
  <-> (if 0 <=? e then 1 < Z.pos m * 2 ^ e else 2 ^ (- e) < Z.pos m).
Proof.
  destruct (Z.leb_spec 0 e) as [He | He].
  - assert (Hv : (inject_Z (Z.pos m) * Qpower 2 e
                  == inject_Z (Z.pos m * 2 ^ e))%Q).
    { rewrite inject_Z_mult. rewrite (Zpower_Qpower 2 e He). reflexivity. }
    rewrite Hv. change 1%Q with (inject_Z 1). rewrite <- Zlt_Qlt.
    reflexivity.
  - assert (Hp : 0 < 2 ^ (- e)) by (apply Z.pow_pos_nonneg; lia).
    assert (Hpq : (0 < inject_Z (2 ^ (- e)))%Q).
    { change 0%Q with (inject_Z 0). now rewrite <- Zlt_Qlt. }
    assert (Hv : (inject_Z (Z.pos m) * Qpower 2 e * inject_Z (2 ^ (- e))
                  == inject_Z (Z.pos m))%Q).
    { assert (He' : e = - - e) by lia. rewrite He' at 1.
      rewrite Qpower_opp.
      rewrite <- (Zpower_Qpower 2 (- e)) by lia.
      field. intros H0. rewrite H0 in Hpq. discriminate Hpq. }
    rewrite (Zlt_Qlt (2 ^ (- e)) (Z.pos m)).
    rewrite <- (Qmult_lt_r _ _ (inject_Z (2 ^ (- e))) Hpq).
    rewrite Hv, Qmult_1_l. reflexivity.
Qed.

(** The comparison of the loop is the comparison of the exact value. *)
Lemma ratio_gt_1_exact (ratio : float) (q : Q) :
  float_to_Q ratio = Some q ->
  (Sophistication.ratio_gt_1 ratio = true <-> (1 < q)%Q).
Proof.
  unfold Sophistication.ratio_gt_1, float_to_Q.
  rewrite ltb_spec. unfold SFltb.
  pose proof (Prim2SF_valid ratio) as Hvalid.
  change (Prim2SF 1) with (S754_finite false 4503599627370496 (-52)).
  destruct (Prim2SF ratio) as [s | s | | s m e]; try discriminate.
  - intros Hq. inversion Hq; subst q. simpl.
    split; intros H; [discriminate H | inversion H].
  - intros Hq. inversion Hq; subst q. clear Hq.
    assert (Hpow : (0 < Qpower 2 e)%Q) by (apply Qpower_0_lt; reflexivity).
    destruct s.
    + simpl. split; intros H; [discriminate H | exfalso].
      assert (Hm : (inject_Z (Z.neg m) < 0)%Q) by reflexivity.
      assert (Hneg : (inject_Z (Z.neg m) * Qpower 2 e <= 0)%Q).
      { rewrite <- (Qmult_0_l (Qpower 2 e)).
        apply Qmult_le_compat_r; [ | apply Qlt_le_weak; exact Hpow ].
        apply Qlt_le_weak. exact Hm. }
      lra.
    + rewrite scaled_gt_one.
      unfold SpecFloat.valid_binary, bounded, canonical_mantissa, fexp, emin
        in Hvalid.
      rewrite digits2_pos_size in Hvalid.
      apply andb_prop in Hvalid. destruct Hvalid as [Hcanon _].
      apply Z.eqb_eq in Hcanon.
      pose proof (mantissa_size_bounds m) as [Hlt Hle].
      unfold prec, emax in Hcanon.
      change (SFcompare (S754_finite false 4503599627370496 (-52))
                (S754_finite false m e))
        with (Some match Z.compare (-52) e with
                   | Lt => Lt
                   | Gt => Gt
                   | Eq => Pos.compare 4503599627370496 m
                   end).
      destruct (Z.compare_spec (-52) e) as [He | He | He].
      * subst e. change (0 <=? -52) with false. cbv iota.
        change (2 ^ (- -52)) with 4503599627370496.
        rewrite Pos2Z.inj_compare.
        destruct (Z.compare_spec 4503599627370496 (Z.pos m)) as [Hc | Hc | Hc];
          split; intros H; try reflexivity; try discriminate H; lia.
      * assert (Hsize : Z.pos (Pos.size m) = 53) by lia.
        rewrite Hsize in Hle.
        change (2 ^ 53) with 9007199254740992 in Hle.
        split; intros _; [ | reflexivity].
        destruct (Z.leb_spec 0 e) as [He0 | He0].
        -- assert (0 < 2 ^ e) by (apply Z.pow_pos_nonneg; lia). nia.
        -- assert (2 ^ (- e) <= 2 ^ 51)
             by (apply Z.pow_le_mono_r; lia).
           change (2 ^ 51) with 2251799813685248 in *. lia.
      * split; intros H; [discriminate H | exfalso].
        destruct (Z.leb_spec 0 e) as [He0 | He0]; [lia | ].
        assert (Hsize : Z.pos (Pos.size m) <= 53) by lia.
        assert (2 ^ Z.pos (Pos.size m) <= 2 ^ 53)
          by (apply Z.pow_le_mono_r; lia).
        assert (2 ^ 53 <= 2 ^ (- e))
          by (apply Z.pow_le_mono_r; lia).
        lia.
Qed.

(** X13. On every finite ratio the test [ratio > 1] decides whether the
    exact value of the double is above 1: the loop reads it ABOVE exactly
    when the value exceeds 1, and BELOW exactly when it is at most 1. *)
Theorem interpretRatio_exact (ratio : float) (q : Q)
  (Hq : float_to_Q ratio = Some q) :
  (Sophistication.interpretRatio ratio = Sophistication.ABOVE
   <-> (1 < q)%Q) /\
  (Sophistication.interpretRatio ratio = Sophistication.BELOW
   <-> (q <= 1)%Q).
Proof.
  pose proof (ratio_gt_1_exact ratio q Hq) as Hgt.
  unfold Sophistication.interpretRatio.
  destruct (Sophistication.ratio_gt_1 ratio); split; split; intros H;
    try reflexivity; try discriminate H.
  - now apply Hgt.
  - exfalso. assert (1 < q)%Q by now apply Hgt. lra.
  - apply Hgt in H. discriminate H.
  - apply Qnot_lt_le. intros Hlt. apply Hgt in Hlt. discriminate Hlt.
Qed.

(** India's 1.08, whose double is slightly above 1.08. *)
Lemma interpretRatio_exact_witness :
  Sophistication.interpretRatio 1.08 = Sophistication.ABOVE
  <-> (1 < 4863887597560136 # 4503599627370496)%Q.
Proof.
  exact (proj1 (interpretRatio_exact 1.08
                  (4863887597560136 # 4503599627370496) eq_refl)).
Defined.

(** X14. The printed ratio against the reading shown under it: a finite
    ratio printed as 1.01 or more is always read ABOVE, and one printed as
    0.99 or less, or with a minus sign, is always read BELOW.  Only the
    text "1.00" goes with both readings: it is shown for 1.0 (BELOW) and
    for 1.004 (ABOVE). *)
Theorem printed_ratio_and_reading (ratio : float) (q : Q)
  (Hq : float_to_Q ratio = Some q) :
  (exists (neg : bool) (n : N),
      format_2f ratio = fixed_2 neg n /\
      (neg = false -> (101 <= n)%N ->
       Sophistication.interpretRatio ratio = Sophistication.ABOVE) /\
      (neg = true \/ (n <= 99)%N ->
       Sophistication.interpretRatio ratio = Sophistication.BELOW)) /\
  (format_2f 1 = fixed_2 false 100 /\
   Sophistication.interpretRatio 1 = Sophistication.BELOW) /\
  (format_2f 1.004 = fixed_2 false 100 /\
   Sophistication.interpretRatio 1.004 = Sophistication.ABOVE).
Proof.
  split; [ | split; split; reflexivity ].
  destruct (format_2f_finite ratio q Hq) as [neg [n [Htext [Hclose Hsign]]]].
  pose proof (ratio_gt_1_exact ratio q Hq) as Hgt.
  exists neg, n. split; [exact Htext | ].
  unfold Sophistication.interpretRatio.
  set (c := inject_Z (Z.of_N n)) in *.
  split.
  - intros Hneg Hn. subst neg.
    assert (Hc : (inject_Z 101 <= c)%Q)
      by (unfold c; rewrite <- Zle_Qle; lia).
    change (inject_Z 101) with 101%Q in Hc.
    rewrite (Qabs_pos q Hsign) in Hclose.
    apply Qabs_Qle_condition in Hclose.
    unfold Qdiv in Hclose. change (/ 100)%Q with (1 # 100)%Q in Hclose.
    clearbody c.
    assert (Hq1 : (1 < q)%Q) by lra.
    apply Hgt in Hq1. now rewrite Hq1.
  - intros Hcase.
    assert (Hq1 : ~ (1 < q)%Q).
    { destruct Hcase as [Hneg | Hn].
      - subst neg. lra.
      - destruct neg; [lra | ].
        assert (Hc : (c <= inject_Z 99)%Q)
          by (unfold c; rewrite <- Zle_Qle; lia).
        change (inject_Z 99) with 99%Q in Hc.
        rewrite (Qabs_pos q Hsign) in Hclose.
        apply Qabs_Qle_condition in Hclose.
        unfold Qdiv in Hclose. change (/ 100)%Q with (1 # 100)%Q in Hclose.
        clearbody c. lra. }
    destruct (Sophistication.ratio_gt_1 ratio); [ | reflexivity].
    exfalso. apply Hq1. now apply Hgt.
Qed.

(** India's 1.08: printed with 108 hundredths, read ABOVE. *)
Lemma printed_ratio_and_reading_witness :
  exists (neg : bool) (n : N),
    format_2f 1.08 = fixed_2 neg n /\
    (neg = false -> (101 <= n)%N ->
     Sophistication.interpretRatio 1.08 = Sophistication.ABOVE) /\
    (neg = true \/ (n <= 99)%N ->
     Sophistication.interpretRatio 1.08 = Sophistication.BELOW).
Proof.
  exact (proj1 (printed_ratio_and_reading 1.08
                  (4863887597560136 # 4503599627370496) eq_refl)).
Defined.
